(** * The [tact] command-line front end (bin/tact.js)

    A shallow embedding of the [run] function of [bin/tact.js]: the flag
    validation, the [--eval] branch, the version path and the mapping of the
    compiler's answer to a process exit code.

    The script is a straight-line sequence of guarded statements whose only
    effects are console output, calls into three collaborators (the compiler
    entry point [main.run], the expression evaluator
    [main.parseAndEvalExpression], a synchronous [git rev-parse HEAD]) and
    [process.exit].  It is modelled in a small monad that records the
    observable events in order and carries the JavaScript completion of the
    statement executed so far: normal, an exception in flight, or the
    process already terminated with a code. *)

From Stdlib Require Import String Ascii List ZArith Bool Lia.
Import ListNotations.
Local Open Scope string_scope.
Local Open Scope Z_scope.

(** ** Values and events *)

(** The JavaScript values that reach the console in this script. *)
Inductive jsval : Type :=
| JUndefined
| JBool (b : bool)
| JNum (n : Z)
| JStr (s : string)
| JError (msg : string).

(** [additionalCliOptions.mode]: one of three string tags, or [undefined]
    (here [None]). *)
Inductive Mode : Type :=
| checkOnly
| funcOnly
| fullWithDecompilation.

(** The object literal handed to [main.run]. *)
Record ExecutionRequest : Type := {
  fileName : option string;
  configPath : option string;
  projectNames : list string;
  mode : option Mode;
  suppressLog : bool
}.

(** What the process does that the outside can see, one constructor per
    kind of effect in the script. *)
Inductive event : Type :=
| ConsoleLog (args : list jsval)
| ConsoleError (args : list jsval)
| HelpText
| ExecGit
| CallEval (source : string)
| CallRun (request : ExecutionRequest).

(** ** The process monad *)

Module Js.

(** How a statement completes. [Exit] is [process.exit]: nothing runs
    after it, neither handlers nor finalizers. *)
Inductive completion (A : Type) : Type :=
| Normal (a : A)
| Throw (e : jsval)
| Exit (code : Z).

Arguments Normal {A} a.
Arguments Throw {A} e.
Arguments Exit {A} code.

Definition Proc (A : Type) : Type := (list event * completion A)%type.

Definition ret {A} (a : A) : Proc A := ([], Normal a).

Definition bind {A B} (m : Proc A) (k : A -> Proc B) : Proc B :=
  match m with
  | (t, Normal a) => let (t', c) := k a in ((t ++ t')%list, c)
  | (t, Throw e) => (t, Throw e)
  | (t, Exit code) => (t, Exit code)
  end.

Definition emit (ev : event) : Proc unit := ([ev], Normal tt).
Definition throw {A} (e : jsval) : Proc A := ([], Throw e).
Definition process_exit {A} (code : Z) : Proc A := ([], Exit code).

(** [try { body } catch (error) { handler }] *)
Definition try_catch {A} (body : Proc A) (handler : jsval -> Proc A) : Proc A :=
  match body with
  | (t, Throw e) => let (t', c) := handler e in ((t ++ t')%list, c)
  | done => done
  end.

(** [try { body } finally { finalizer }]: the finalizer runs on a normal
    and on an abrupt completion of the body, and its own abrupt completion
    replaces the body's. *)
Definition try_finally {A} (body : Proc A) (finalizer : Proc unit) : Proc A :=
  match body with
  | (t, Exit code) => (t, Exit code)
  | (t, Normal a) =>
      match finalizer with
      | (t', Normal _) => ((t ++ t')%list, Normal a)
      | (t', Throw e) => ((t ++ t')%list, Throw e)
      | (t', Exit code) => ((t ++ t')%list, Exit code)
      end
  | (t, Throw e) =>
      match finalizer with
      | (t', Normal _) => ((t ++ t')%list, Throw e)
      | (t', Throw e') => ((t ++ t')%list, Throw e')
      | (t', Exit code) => ((t ++ t')%list, Exit code)
      end
  end.

(** [if (cond) { body }] *)
Definition when (cond : bool) (body : Proc unit) : Proc unit :=
  if cond then body else ret tt.

Definition trace {A} (p : Proc A) : list event := fst p.
Definition outcome {A} (p : Proc A) : completion A := snd p.

Definition exit_code {A} (p : Proc A) : option Z :=
  match outcome p with
  | Exit code => Some code
  | _ => None
  end.

Declare Scope js_scope.
Delimit Scope js_scope with js.
Notation "x <- m ;; k" := (bind m (fun x => k))
  (at level 100, m at next level, right associativity) : js_scope.
Notation "m ;; k" := (bind m (fun _ => k))
  (at level 100, right associativity) : js_scope.

End Js.

Import Js.
Local Open Scope js_scope.

(** ** String helpers *)

(** ASCII white space and line terminators, as removed by
    [String.prototype.trim] from the output of [git]. *)
Definition is_space (c : ascii) : bool :=
  match nat_of_ascii c with
  | 9%nat | 10%nat | 11%nat | 12%nat | 13%nat | 32%nat => true
  | _ => false
  end.

Fixpoint trim_start (s : string) : string :=
  match s with
  | EmptyString => EmptyString
  | String c rest => if is_space c then trim_start rest else s
  end.

Fixpoint trim_end (s : string) : string :=
  match s with
  | EmptyString => EmptyString
  | String c rest =>
      match trim_end rest with
      | EmptyString => if is_space c then EmptyString else String c EmptyString
      | kept => String c kept
      end
  end.

Definition trim (s : string) : string := trim_end (trim_start s).

(** ** The parsed command line *)

(** [cli.flags] as declared in the [flags] schema of [initializeCli].
    [config] and [eval] are string flags without a default, so they are
    [undefined] (here [None]) when absent; [projects] is a multiple flag,
    always an array. Only the truthiness of the boolean flags is read. *)
Record Flags : Type := {
  config : option string;
  projects : list string;
  quiet : bool;
  withDecompilation : bool;
  func : bool;
  check : bool;
  eval : option string;
  version : bool;
  help : bool
}.

Record Cli : Type := {
  flags : Flags;
  input : list string
}.

(** Truthiness of an optional string: [undefined] and the empty string are
    falsy. *)
Definition truthy (v : option string) : bool :=
  match v with
  | Some (String _ _) => true
  | _ => false
  end.

Definition defined {A} (v : option A) : bool :=
  match v with
  | Some _ => true
  | None => false
  end.

(** The [isRequired] callback of the [config] flag: the argument parser
    refuses a command line on which it holds and [config] is absent. *)
Definition config_isRequired (f : Flags) : bool :=
  negb (length (projects f) =? 0)%nat
  && negb (version f) && negb (help f) && negb (truthy (eval f)).

Definition parser_accepts (cli : Cli) : bool :=
  negb (config_isRequired (flags cli) && negb (defined (config (flags cli)))).

(** ** The collaborators *)

Inductive answer (A : Type) : Type :=
| Returned (a : A)
| Thrown (e : jsval).

Arguments Returned {A} a.
Arguments Thrown {A} e.

(** The tagged result of [parseAndEvalExpression]: [kind === "ok"] with a
    [value], or any other [kind] with a [message]. *)
Inductive EvalResult : Type :=
| EvalOk (value : jsval)
| EvalFailed (message : string).

(** The response of [main.run]. *)
Record RunResponse : Type := { ok : bool }.

(** Everything the script reads from outside the command line:
    [pkg.version], the outcome of [git rev-parse HEAD], the evaluator and
    the compiler. A rejected promise of [main.run] is a [Thrown] at the
    [await]. *)
Record World : Type := {
  pkg_version : string;
  git_rev_parse : answer string;
  parseAndEvalExpression : string -> answer EvalResult;
  main_run : ExecutionRequest -> answer RunResponse
}.

Definition perform {A} (ev : event) (a : answer A) : Proc A :=
  emit ev ;;
  match a with
  | Returned v => ret v
  | Thrown e => throw e
  end.

Definition console_log (args : list jsval) : Proc unit := emit (ConsoleLog args).
Definition console_error (args : list jsval) : Proc unit := emit (ConsoleError args).

(** [cli.showHelp(code)] of the argument-parsing library: prints the help
    text and ends the process with [code], or with 2 when no number is
    passed. *)
Definition showHelp (code : option Z) : Proc unit :=
  emit HelpText ;;
  process_exit (match code with Some c => c | None => 2 end).

Definition isEmptyConfigAndInput (cli : Cli) : bool :=
  negb (defined (config (flags cli))) && (length (input cli) =? 0)%nat.

Definition showErrorAndExit (message : string) (cli : Cli) : Proc unit :=
  console_error [JStr ("Error: " ++ message)] ;;
  showHelp None.

Definition both_message : string :=
  "Both config and Tact file can't be simultaneously specified, pick one!".
Definition exclusive_message : string :=
  "Flags --with-decompilation, --func and --check are mutually exclusive!".
Definition either_message : string :=
  "Either config or Tact file have to be specified!".
Definition one_file_message : string :=
  "Only one Tact file can be specified at a time. If you want more, provide a config!".

Section Run.

Variable w : World.
Variable cli : Cli.

Definition compilationModeFlags : list bool :=
  [ check (flags cli); func (flags cli); withDecompilation (flags cli) ].

Definition numOfCompilationModeFlagsSet : nat :=
  length (filter (fun flag => flag) compilationModeFlags).

Definition resolved_mode : option Mode :=
  if check (flags cli) then Some checkOnly
  else if func (flags cli) then Some funcOnly
  else if withDecompilation (flags cli) then Some fullWithDecompilation
  else None.

(** [cli.input.at(0)] is [undefined] on an empty list; [projects] is
    never nullish, so [cli.flags.projects ?? []] is [projects]. *)
Definition request : ExecutionRequest :=
  {| fileName := nth_error (input cli) 0;
     configPath := config (flags cli);
     projectNames := projects (flags cli);
     mode := resolved_mode;
     suppressLog := quiet (flags cli) |}.

Definition run : Proc unit :=
  when (help (flags cli)) (showHelp (Some 0)) ;;

  when (version (flags cli))
    (console_log [JStr (pkg_version w)] ;;
     try_finally
       (gitCommit <- perform ExecGit (git_rev_parse w) ;;
        console_log [JStr ("git commit: " ++ trim gitCommit)])
       (process_exit 0)) ;;

  match eval (flags cli) with
  | Some source =>
      when (truthy (Some source))
        (try_catch
           (result <- perform (CallEval source) (parseAndEvalExpression w source) ;;
            match result with
            | EvalOk value => console_log [value]
            | EvalFailed message =>
                console_error [JStr message] ;;
                process_exit 30
            end)
           (fun error =>
              console_error [JStr "Evaluation error:"; error] ;;
              process_exit 1))
  | None => ret tt
  end ;;

  when (defined (config (flags cli)) && (0 <? length (input cli))%nat)
    (showErrorAndExit both_message cli) ;;

  when (1 <? numOfCompilationModeFlagsSet)%nat
    (showErrorAndExit exclusive_message cli) ;;

  when (isEmptyConfigAndInput cli && (0 <? numOfCompilationModeFlagsSet)%nat)
    (showErrorAndExit either_message cli) ;;

  when (1 <? length (input cli))%nat
    (showErrorAndExit one_file_message cli) ;;

  when (isEmptyConfigAndInput cli
        && (numOfCompilationModeFlagsSet =? 0)%nat
        && (length (projects (flags cli)) =? 0)%nat)
    (showHelp (Some 0)) ;;

  try_catch
    (response <- perform (CallRun request) (main_run w request) ;;
     process_exit (if ok response then 0 else 30))
    (fun error =>
       console_error [JStr "Execution error:"; error] ;;
       process_exit 1).

End Run.

(** ** Observations on a run *)

(** The line [showErrorAndExit] writes to the error stream. *)
Definition usage_error (message : string) : event :=
  ConsoleError [JStr ("Error: " ++ message)].

Definition is_call_run (ev : event) : bool :=
  match ev with
  | CallRun _ => true
  | _ => false
  end.

Definition is_call_eval (ev : event) : bool :=
  match ev with
  | CallEval _ => true
  | _ => false
  end.

Definition is_usage_error (message : string) (ev : event) : bool :=
  match ev with
  | ConsoleError [JStr line] => (line =? "Error: " ++ message)%string
  | _ => false
  end.

Definition calls_backend (p : Proc unit) : bool := existsb is_call_run (trace p).
Definition calls_evaluator (p : Proc unit) : bool := existsb is_call_eval (trace p).
Definition reports (message : string) (p : Proc unit) : bool :=
  existsb (is_usage_error message) (trace p).

(** What the eval branch leaves on the console when it lets the script go
    on: nothing when [eval] is falsy, the call and the printed value when the
    evaluator answers [kind === "ok"]. [None] when the branch ends the
    process. *)
Definition eval_output (w : World) (cli : Cli) : option (list event) :=
  match eval (flags cli) with
  | Some source =>
      if truthy (Some source) then
        match parseAndEvalExpression w source with
        | Returned (EvalOk value) => Some [CallEval source; ConsoleLog [value]]
        | _ => None
        end
      else Some []
  | None => Some []
  end.

(** The guard of the first validation check: a config and a file. *)
Definition both_given (cli : Cli) : bool :=
  defined (config (flags cli)) && (0 <? length (input cli))%nat.

(** The five guards between the eval branch and the call of [main.run],
    all false. *)
Definition validation_passed (cli : Cli) : bool :=
  negb (both_given cli)
  && negb (1 <? numOfCompilationModeFlagsSet cli)%nat
  && negb (isEmptyConfigAndInput cli && (0 <? numOfCompilationModeFlagsSet cli)%nat)
  && negb (1 <? length (input cli))%nat
  && negb (isEmptyConfigAndInput cli
           && (numOfCompilationModeFlagsSet cli =? 0)%nat
           && (length (projects (flags cli)) =? 0)%nat).

Definition set_eval (e : option string) (f : Flags) : Flags :=
  {| config := config f;
     projects := projects f;
     quiet := quiet f;
     withDecompilation := withDecompilation f;
     func := func f;
     check := check f;
     eval := e;
     version := version f;
     help := help f |}.

(** ** Concrete command lines and collaborators *)

Definition no_flags : Flags :=
  {| config := None; projects := []; quiet := false;
     withDecompilation := false; func := false; check := false;
     eval := None; version := false; help := false |}.

(** A compiler that succeeds, an evaluator that knows [1+1], a checkout
    whose head is [0a1b2c]. *)
Definition sample_world : World :=
  {| pkg_version := "1.4.0";
     git_rev_parse := Returned ("0a1b2c" ++ String (ascii_of_nat 10) EmptyString);
     parseAndEvalExpression := fun source =>
       if (source =? "1+1")%string then Returned (EvalOk (JNum 2))
       else if (source =? "1/0")%string then Returned (EvalFailed "division by zero")
       else Thrown (JError "unexpected token");
     main_run := fun _ => Returned {| ok := true |} |}.

Definition failing_world : World :=
  {| pkg_version := "1.4.0";
     git_rev_parse := Thrown (JError "spawnSync git ENOENT");
     parseAndEvalExpression := fun _ => Thrown (JError "out of memory");
     main_run := fun _ => Returned {| ok := false |} |}.

Definition crashing_world : World :=
  {| pkg_version := "1.4.0";
     git_rev_parse := Thrown (JError "spawnSync git ENOENT");
     parseAndEvalExpression := fun _ => Thrown (JError "out of memory");
     main_run := fun _ => Thrown (JError "ENOSPC") |}.

(** [tact --version --check -e 1+1] *)
Definition version_and_more : Cli :=
  {| flags := {| config := None; projects := []; quiet := false;
                 withDecompilation := false; func := false; check := true;
                 eval := Some "1+1"; version := true; help := false |};
     input := [] |}.

(** [tact -e 1/0] *)
Definition eval_division_by_zero : Cli :=
  {| flags := set_eval (Some "1/0") no_flags; input := [] |}.

(** [tact -c cfg.json file.tact] *)
Definition config_and_file : Cli :=
  {| flags := {| config := Some "cfg.json"; projects := []; quiet := false;
                 withDecompilation := false; func := false; check := false;
                 eval := None; version := false; help := false |};
     input := ["file.tact"] |}.

(** [tact --check --func], [tact --check --func a.tact b.tact] and
    [tact --check] *)
Definition with_modes (ck fn wd : bool) (files : list string) : Cli :=
  {| flags := {| config := None; projects := []; quiet := false;
                 withDecompilation := wd; func := fn; check := ck;
                 eval := None; version := false; help := false |};
     input := files |}.

Definition check_and_func : Cli := with_modes true true false [].
Definition check_and_func_two_files : Cli :=
  with_modes true true false ["a.tact"; "b.tact"].
Definition check_alone : Cli := with_modes true false false [].

(** [tact a.tact b.tact] and the same with [--help], [--version],
    [-e 1/0] or [-c cfg.json] in front *)
Definition two_files : Cli := with_modes false false false ["a.tact"; "b.tact"].

Definition two_files_with (f : Flags) : Cli :=
  {| flags := f; input := ["a.tact"; "b.tact"] |}.

Definition help_flag : Flags :=
  {| config := None; projects := []; quiet := false;
     withDecompilation := false; func := false; check := false;
     eval := None; version := false; help := true |}.

Definition version_flag : Flags :=
  {| config := None; projects := []; quiet := false;
     withDecompilation := false; func := false; check := false;
     eval := None; version := true; help := false |}.

Definition config_flag : Flags :=
  {| config := Some "cfg.json"; projects := []; quiet := false;
     withDecompilation := false; func := false; check := false;
     eval := None; version := false; help := false |}.

(** [tact a.tact] and [tact -e 1+1] *)
Definition one_file : Cli := with_modes false false false ["a.tact"].

Definition eval_one_plus_one : Cli :=
  {| flags := set_eval (Some "1+1") no_flags; input := [] |}.

(** [tact a.tact] with [-e] and an empty expression in front *)
Definition empty_eval_one_file : Cli :=
  {| flags := set_eval (Some EmptyString) no_flags; input := ["a.tact"] |}.

(** ** Further observations *)

(** The requests handed to [main.run], the sources handed to the evaluator,
    the lines written with [console.error] and the number of [git]
    look-ups, in the order of the run. *)
Definition requests (p : Proc unit) : list ExecutionRequest :=
  flat_map (fun ev => match ev with CallRun r => [r] | _ => [] end) (trace p).

Definition evaluated (p : Proc unit) : list string :=
  flat_map (fun ev => match ev with CallEval s => [s] | _ => [] end) (trace p).

Definition is_console_error (ev : event) : bool :=
  match ev with
  | ConsoleError _ => true
  | _ => false
  end.

Definition is_exec_git (ev : event) : bool :=
  match ev with
  | ExecGit => true
  | _ => false
  end.

Definition stderr_lines (p : Proc unit) : list event :=
  filter is_console_error (trace p).

Definition git_lookups (p : Proc unit) : nat :=
  length (filter is_exec_git (trace p)).


(** The guard of the last check before the build: nothing to build. *)
Definition bare (cli : Cli) : bool :=
  isEmptyConfigAndInput cli
  && (numOfCompilationModeFlagsSet cli =? 0)%nat
  && (length (projects (flags cli)) =? 0)%nat.


(** The ways through [run], one constructor per statement that can end the
    process, each with the guards that lead to it as they stand in the
    script. *)
Inductive path (w : World) (cli : Cli) : Proc unit -> Prop :=
| path_help :
    help (flags cli) = true ->
    path w cli ([HelpText], Exit 0)
| path_version_found out :
    help (flags cli) = false -> version (flags cli) = true ->
    git_rev_parse w = Returned out ->
    path w cli ([ConsoleLog [JStr (pkg_version w)]; ExecGit;
                 ConsoleLog [JStr ("git commit: " ++ trim out)]], Exit 0)
| path_version_unknown e :
    help (flags cli) = false -> version (flags cli) = true ->
    git_rev_parse w = Thrown e ->
    path w cli ([ConsoleLog [JStr (pkg_version w)]; ExecGit], Exit 0)
| path_eval_failed source message :
    help (flags cli) = false -> version (flags cli) = false ->
    eval (flags cli) = Some source -> truthy (Some source) = true ->
    parseAndEvalExpression w source = Returned (EvalFailed message) ->
    path w cli ([CallEval source; ConsoleError [JStr message]], Exit 30)
| path_eval_thrown source e :
    help (flags cli) = false -> version (flags cli) = false ->
    eval (flags cli) = Some source -> truthy (Some source) = true ->
    parseAndEvalExpression w source = Thrown e ->
    path w cli ([CallEval source; ConsoleError [JStr "Evaluation error:"; e]],
                Exit 1)
| path_both pre :
    help (flags cli) = false -> version (flags cli) = false ->
    eval_output w cli = Some pre ->
    both_given cli = true ->
    path w cli ((pre ++ [usage_error both_message; HelpText])%list, Exit 2)
| path_exclusive pre :
    help (flags cli) = false -> version (flags cli) = false ->
    eval_output w cli = Some pre ->
    both_given cli = false ->
    (1 <? numOfCompilationModeFlagsSet cli)%nat = true ->
    path w cli ((pre ++ [usage_error exclusive_message; HelpText])%list, Exit 2)
| path_either pre :
    help (flags cli) = false -> version (flags cli) = false ->
    eval_output w cli = Some pre ->
    both_given cli = false ->
    (1 <? numOfCompilationModeFlagsSet cli)%nat = false ->
    isEmptyConfigAndInput cli && (0 <? numOfCompilationModeFlagsSet cli)%nat = true ->
    path w cli ((pre ++ [usage_error either_message; HelpText])%list, Exit 2)
| path_one_file pre :
    help (flags cli) = false -> version (flags cli) = false ->
    eval_output w cli = Some pre ->
    both_given cli = false ->
    (1 <? numOfCompilationModeFlagsSet cli)%nat = false ->
    isEmptyConfigAndInput cli && (0 <? numOfCompilationModeFlagsSet cli)%nat = false ->
    (1 <? length (input cli))%nat = true ->
    path w cli ((pre ++ [usage_error one_file_message; HelpText])%list, Exit 2)
| path_bare pre :
    help (flags cli) = false -> version (flags cli) = false ->
    eval_output w cli = Some pre ->
    both_given cli = false ->
    (1 <? numOfCompilationModeFlagsSet cli)%nat = false ->
    isEmptyConfigAndInput cli && (0 <? numOfCompilationModeFlagsSet cli)%nat = false ->
    (1 <? length (input cli))%nat = false ->
    bare cli = true ->
    path w cli ((pre ++ [HelpText])%list, Exit 0)
| path_run_returned pre response :
    help (flags cli) = false -> version (flags cli) = false ->
    eval_output w cli = Some pre ->
    validation_passed cli = true ->
    main_run w (request cli) = Returned response ->
    path w cli ((pre ++ [CallRun (request cli)])%list,
                Exit (if ok response then 0 else 30))
| path_run_thrown pre e :
    help (flags cli) = false -> version (flags cli) = false ->
    eval_output w cli = Some pre ->
    validation_passed cli = true ->
    main_run w (request cli) = Thrown e ->
    path w cli ((pre ++ [CallRun (request cli);
                         ConsoleError [JStr "Execution error:"; e]])%list,
                Exit 1).

(** [tact], [tact --func a.tact], [tact -e 1+1 --check],
    [tact -c PATH -p core -q --check] with an empty path, and
    [tact -e 1+1 -p core] *)
Definition no_arguments : Cli := {| flags := no_flags; input := [] |}.

Definition func_one_file : Cli := with_modes false true false ["a.tact"].


Definition empty_config_check : Cli :=
  {| flags := {| config := Some EmptyString; projects := ["core"]; quiet := true;
                 withDecompilation := false; func := false; check := true;
                 eval := None; version := false; help := false |};
     input := [] |}.

Definition eval_and_project : Cli :=
  {| flags := {| config := None; projects := ["core"]; quiet := false;
                 withDecompilation := false; func := false; check := false;
                 eval := Some "1+1"; version := false; help := false |};
     input := [] |}.

(** ** Proof automation *)

(** Case analysis on the eval branch for a command line whose eval branch
    does not end the process. *)
Ltac eval_cases H :=
  unfold eval_output in H; simpl in H;
  match type of H with
  | context [match ?e with Some _ => _ | None => _ end] =>
      destruct e as [[|? ?]|]; simpl in H
  end;
  try match type of H with
  | context [parseAndEvalExpression ?w ?s] =>
      let E := fresh "E" in
      destruct (parseAndEvalExpression w s) as [[?|?]|?] eqn:E; simpl in H
  end;
  inversion H; subst; clear H.

Ltac list_cases l :=
  destruct l as [|? [|? ?]]; simpl in *; try discriminate; try lia.

Ltac open_cli cli :=
  destruct cli as [[cfg prj q wd fn ck ev ver hlp] inp];
  unfold both_given, isEmptyConfigAndInput, numOfCompilationModeFlagsSet,
    compilationModeFlags in *;
  simpl in *.

Ltac unfold_guards :=
  unfold both_given, bare, isEmptyConfigAndInput, numOfCompilationModeFlagsSet,
    compilationModeFlags in *;
  simpl in *.

Ltac run_after_eval Hev :=
  eval_cases Hev; unfold run; simpl;
  try match goal with
  | E : parseAndEvalExpression _ _ = _ |- _ => rewrite E
  end;
  reflexivity.

(** ** Properties *)

Example trim_git_output : trim ("0a1b2c" ++ String (ascii_of_nat 10) EmptyString) = "0a1b2c".
Proof. reflexivity. Qed.

Example tact_version :
  run sample_world {| flags := {| config := None; projects := []; quiet := false;
                                  withDecompilation := false; func := false;
                                  check := false; eval := None;
                                  version := true; help := false |};
                      input := [] |}
  = ([ConsoleLog [JStr "1.4.0"]; ExecGit; ConsoleLog [JStr "git commit: 0a1b2c"]],
     Exit 0).
Proof. reflexivity. Qed.

(** C2: with the help flag set, whatever the other flags and the positional
    input, the process shows the help text and ends with code 0, and nothing
    else happens: no version line, no evaluator call, no usage error, no
    compiler call. *)
Theorem help_takes_precedence (w : World) (cli : Cli) :
  help (flags cli) = true ->
  run w cli = ([HelpText], Exit 0).
Proof.
  destruct cli as [[cfg prj q wd fn ck ev ver hlp] inp]; simpl.
  intros ->. reflexivity.
Qed.

Lemma help_takes_precedence_witness :
  run crashing_world
      {| flags := {| config := Some "tact.config.json"; projects := ["a"];
                     quiet := true; withDecompilation := true; func := true;
                     check := true; eval := Some "1+1"; version := true;
                     help := true |};
         input := ["a.tact"; "b.tact"] |}
  = ([HelpText], Exit 0).
Proof. apply help_takes_precedence. reflexivity. Defined.

(** C3: with the version flag set and help unset, the process prints the
    version, looks up the revision, and ends with code 0 whether the lookup
    returned (its trimmed output is printed) or threw (nothing more is
    printed); the evaluator and the compiler are not called and no usage
    error is written. *)
Theorem version_always_exits_0 (w : World) (cli : Cli) :
  help (flags cli) = false ->
  version (flags cli) = true ->
  (forall out, git_rev_parse w = Returned out ->
     run w cli = ([ConsoleLog [JStr (pkg_version w)]; ExecGit;
                   ConsoleLog [JStr ("git commit: " ++ trim out)]], Exit 0))
  /\ (forall e, git_rev_parse w = Thrown e ->
        run w cli = ([ConsoleLog [JStr (pkg_version w)]; ExecGit], Exit 0))
  /\ exit_code (run w cli) = Some 0
  /\ calls_evaluator (run w cli) = false
  /\ (forall message, reports message (run w cli) = false)
  /\ calls_backend (run w cli) = false.
Proof.
  destruct cli as [[cfg prj q wd fn ck ev ver hlp] inp]; simpl.
  intros -> ->.
  unfold run, calls_evaluator, calls_backend, reports, exit_code; simpl.
  destruct (git_rev_parse w) as [out|e]; simpl;
    repeat split; intros; try congruence.
Qed.

Lemma version_always_exits_0_witness :
  run failing_world version_and_more
  = ([ConsoleLog [JStr "1.4.0"]; ExecGit], Exit 0).
Proof.
  apply (proj1 (proj2 (version_always_exits_0 failing_world version_and_more
                         eq_refl eq_refl))
           (JError "spawnSync git ENOENT")).
  reflexivity.
Defined.

(** C4: on a command line that reaches the eval branch (help and version
    unset, [eval] a non-empty string), a tagged failure of the evaluator is
    written to the error stream and the process ends with code 30; an
    exception of the evaluator is written after the prefix
    ["Evaluation error:"] and the process ends with code 1. *)
Theorem eval_failure_codes (w : World) (cli : Cli) (source : string) :
  help (flags cli) = false ->
  version (flags cli) = false ->
  eval (flags cli) = Some source ->
  source <> EmptyString ->
  (forall message, parseAndEvalExpression w source = Returned (EvalFailed message) ->
     run w cli = ([CallEval source; ConsoleError [JStr message]], Exit 30))
  /\ (forall e, parseAndEvalExpression w source = Thrown e ->
        run w cli = ([CallEval source;
                      ConsoleError [JStr "Evaluation error:"; e]], Exit 1)).
Proof.
  destruct cli as [[cfg prj q wd fn ck ev ver hlp] inp]; simpl.
  intros -> -> -> Hne.
  destruct source as [|c s]; [congruence|].
  split; intros x Hx; unfold run; simpl; rewrite Hx; reflexivity.
Qed.

Lemma eval_failure_codes_witness :
  run sample_world eval_division_by_zero
  = ([CallEval "1/0"; ConsoleError [JStr "division by zero"]], Exit 30).
Proof.
  apply (proj1 (eval_failure_codes sample_world eval_division_by_zero "1/0"
                  eq_refl eq_refl eq_refl ltac:(discriminate))).
  reflexivity.
Defined.

(** C5: with a config and at least one positional argument (help and version
    unset, the eval branch not ending the process), the script writes the
    "both config and Tact file" line, renders the help and the process ends
    there: after what the eval branch printed, these two events are the whole
    run, so no mode-flag message follows and the compiler is not called. *)
Theorem both_config_and_file_rejected (w : World) (cli : Cli) (pre : list event) :
  help (flags cli) = false ->
  version (flags cli) = false ->
  eval_output w cli = Some pre ->
  config (flags cli) <> None ->
  input cli <> [] ->
  run w cli = ((pre ++ [usage_error both_message; HelpText])%list, Exit 2)
  /\ reports exclusive_message (run w cli) = false
  /\ reports either_message (run w cli) = false
  /\ reports one_file_message (run w cli) = false
  /\ calls_backend (run w cli) = false.
Proof.
  destruct cli as [[cfg prj q wd fn ck ev ver hlp] inp]; simpl.
  intros -> -> Hev Hcfg Hinp.
  destruct cfg as [c|]; [clear Hcfg|congruence].
  destruct inp as [|file rest]; [congruence|clear Hinp].
  assert (Hrun : run w {| flags := {| config := Some c; projects := prj; quiet := q;
                                     withDecompilation := wd; func := fn; check := ck;
                                     eval := ev; version := false; help := false |};
                         input := file :: rest |}
                 = ((pre ++ [usage_error both_message; HelpText])%list, Exit 2)).
  { eval_cases Hev; unfold run; simpl; try rewrite E; reflexivity. }
  rewrite Hrun. split; [reflexivity|].
  eval_cases Hev; repeat split; reflexivity.
Qed.

Lemma both_config_and_file_rejected_witness :
  run sample_world config_and_file
  = ([usage_error both_message; HelpText], Exit 2).
Proof.
  apply (both_config_and_file_rejected sample_world config_and_file []);
    solve [reflexivity | discriminate].
Defined.

(** C6: with two or more of [check], [func], [withDecompilation] set and no
    earlier statement ending the process (help and version unset, the eval
    branch passed, not both a config and a file), the script writes the
    "mutually exclusive" line and renders the help, and the process ends
    there: the "either config or file" and the "only one file" checks
    come later in the script and write nothing, whatever the config and the
    positional arguments are. *)
Theorem mutually_exclusive_rejected_first (w : World) (cli : Cli) (pre : list event) :
  help (flags cli) = false ->
  version (flags cli) = false ->
  eval_output w cli = Some pre ->
  both_given cli = false ->
  (2 <= numOfCompilationModeFlagsSet cli)%nat ->
  run w cli = ((pre ++ [usage_error exclusive_message; HelpText])%list, Exit 2)
  /\ reports either_message (run w cli) = false
  /\ reports one_file_message (run w cli) = false
  /\ calls_backend (run w cli) = false.
Proof.
  open_cli cli. intros -> -> Hev Hboth Hnum.
  match goal with
  | |- ?r = ?v /\ _ => assert (Hrun : r = v)
  end.
  { destruct cfg; list_cases inp;
      destruct ck, fn, wd; simpl in Hnum; try lia; run_after_eval Hev. }
  rewrite Hrun. split; [reflexivity|].
  eval_cases Hev; repeat split; reflexivity.
Qed.

Lemma mutually_exclusive_rejected_first_witness :
  run sample_world check_and_func
  = ([usage_error exclusive_message; HelpText], Exit 2)
  /\ run sample_world check_and_func_two_files
     = ([usage_error exclusive_message; HelpText], Exit 2).
Proof.
  split.
  - apply (mutually_exclusive_rejected_first sample_world check_and_func []);
      solve [reflexivity | cbv; lia].
  - apply (mutually_exclusive_rejected_first sample_world check_and_func_two_files []);
      solve [reflexivity | cbv; lia].
Defined.

(** C7: with exactly one of [check], [func], [withDecompilation] set, no
    config and no positional argument (help and version unset, the eval
    branch passed), the script writes the "either config or Tact file" line
    and renders the help, the process ends there and the compiler is not
    called. *)
Theorem mode_without_source_rejected (w : World) (cli : Cli) (pre : list event) :
  help (flags cli) = false ->
  version (flags cli) = false ->
  eval_output w cli = Some pre ->
  numOfCompilationModeFlagsSet cli = 1%nat ->
  config (flags cli) = None ->
  input cli = [] ->
  run w cli = ((pre ++ [usage_error either_message; HelpText])%list, Exit 2)
  /\ calls_backend (run w cli) = false.
Proof.
  open_cli cli. intros -> -> Hev Hnum -> ->.
  match goal with
  | |- ?r = ?v /\ _ => assert (Hrun : r = v)
  end.
  { destruct ck, fn, wd; simpl in Hnum; try discriminate; run_after_eval Hev. }
  rewrite Hrun. split; [reflexivity|].
  eval_cases Hev; reflexivity.
Qed.

Lemma mode_without_source_rejected_witness :
  run sample_world check_alone
  = ([usage_error either_message; HelpText], Exit 2).
Proof.
  apply (mode_without_source_rejected sample_world check_alone []);
    reflexivity.
Defined.

(** C8, as stated, fails: on [tact --check --func a.tact b.tact] the
    positional list has two elements, the argument parser accepts the
    command line, and the script ends at the mutual-exclusion check without
    writing the "only one Tact file" line. *)
Lemma two_files_not_always_one_file_message :
  (1 < length (input check_and_func_two_files))%nat
  /\ parser_accepts check_and_func_two_files = true
  /\ run sample_world check_and_func_two_files
     = ([usage_error exclusive_message; HelpText], Exit 2)
  /\ reports one_file_message (run sample_world check_and_func_two_files) = false.
Proof. repeat split. cbv; lia. Qed.

(** Each of the other conditions of the amended C8 is needed as well. *)
Example two_files_after_help :
  run sample_world (two_files_with help_flag) = ([HelpText], Exit 0).
Proof. reflexivity. Qed.

Example two_files_after_version :
  reports one_file_message (run sample_world (two_files_with version_flag)) = false.
Proof. reflexivity. Qed.

Example two_files_after_failed_eval :
  run sample_world (two_files_with (set_eval (Some "1/0") no_flags))
  = ([CallEval "1/0"; ConsoleError [JStr "division by zero"]], Exit 30).
Proof. reflexivity. Qed.

Example two_files_after_config :
  run sample_world (two_files_with config_flag)
  = ([usage_error both_message; HelpText], Exit 2).
Proof. reflexivity. Qed.

(** C8, amended: with more than one positional argument, and no earlier
    statement ending the process (help and version unset, the eval branch
    passed, no config, at most one of [check], [func], [withDecompilation]
    set), the script writes the "only one Tact file" line and renders the
    help, the process ends there and the compiler is not called. The values
    of [projects] and [quiet], and which mode flag is set, play no role. *)
Theorem several_files_rejected (w : World) (cli : Cli) (pre : list event) :
  help (flags cli) = false ->
  version (flags cli) = false ->
  eval_output w cli = Some pre ->
  config (flags cli) = None ->
  (numOfCompilationModeFlagsSet cli <= 1)%nat ->
  (1 < length (input cli))%nat ->
  run w cli = ((pre ++ [usage_error one_file_message; HelpText])%list, Exit 2)
  /\ calls_backend (run w cli) = false.
Proof.
  open_cli cli. intros -> -> Hev -> Hnum Hlen.
  match goal with
  | |- ?r = ?v /\ _ => assert (Hrun : r = v)
  end.
  { list_cases inp;
      destruct ck, fn, wd; simpl in Hnum; try lia; run_after_eval Hev. }
  rewrite Hrun. split; [reflexivity|].
  eval_cases Hev; reflexivity.
Qed.

Lemma several_files_rejected_witness :
  run sample_world two_files
  = ([usage_error one_file_message; HelpText], Exit 2).
Proof.
  apply (several_files_rejected sample_world two_files []);
    solve [reflexivity | cbv; lia].
Defined.

(** C1: on a build invocation (help and version unset, the eval branch
    passed, every validation guard false) the compiler is called once with
    the request built from the command line, and the process ends with code
    0 when it answers [{ok: true}], with code 30 when it answers
    [{ok: false}], and with code 1 when the call throws, after the exception
    is written to the error stream behind the prefix ["Execution error:"]. *)
Theorem backend_answer_to_exit_code (w : World) (cli : Cli) (pre : list event) :
  help (flags cli) = false ->
  version (flags cli) = false ->
  eval_output w cli = Some pre ->
  validation_passed cli = true ->
  (main_run w (request cli) = Returned {| ok := true |} ->
     run w cli = ((pre ++ [CallRun (request cli)])%list, Exit 0))
  /\ (main_run w (request cli) = Returned {| ok := false |} ->
        run w cli = ((pre ++ [CallRun (request cli)])%list, Exit 30))
  /\ (forall e, main_run w (request cli) = Thrown e ->
        run w cli = ((pre ++ [CallRun (request cli);
                              ConsoleError [JStr "Execution error:"; e]])%list,
                     Exit 1)).
Proof.
  unfold validation_passed. open_cli cli. intros -> -> Hev Hvalid.
  unfold request, resolved_mode; simpl.
  destruct cfg; list_cases inp; destruct ck, fn, wd; simpl in Hvalid;
    try discriminate; destruct prj; simpl in Hvalid; try discriminate;
    (repeat split; intros; eval_cases Hev;
     unfold run, request, resolved_mode; simpl;
     try match goal with
     | E : parseAndEvalExpression _ _ = _ |- _ => rewrite E
     end;
     simpl;
     match goal with
     | R : main_run _ _ = _ |- _ => rewrite R
     end;
     reflexivity).
Qed.

Lemma backend_answer_to_exit_code_witness :
  run sample_world one_file = ([CallRun (request one_file)], Exit 0)
  /\ run failing_world one_file = ([CallRun (request one_file)], Exit 30)
  /\ run crashing_world one_file
     = ([CallRun (request one_file);
         ConsoleError [JStr "Execution error:"; JError "ENOSPC"]], Exit 1).
Proof.
  split; [|split].
  - apply (proj1 (backend_answer_to_exit_code sample_world one_file []
                    eq_refl eq_refl eq_refl eq_refl)).
    reflexivity.
  - apply (proj1 (proj2 (backend_answer_to_exit_code failing_world one_file []
                           eq_refl eq_refl eq_refl eq_refl))).
    reflexivity.
  - apply (proj2 (proj2 (backend_answer_to_exit_code crashing_world one_file []
                           eq_refl eq_refl eq_refl eq_refl))).
    reflexivity.
Defined.

(** C9: on [tact -e 1+1], when the evaluator answers
    [{kind: "ok", value: 2}], the script prints [2] on standard output, goes
    on past the eval branch, passes the four usage checks without a message,
    and ends at the bare-invocation check, which renders the help with code
    0; the compiler is not called. *)
Theorem eval_ok_then_exit_0 (w : World) :
  parseAndEvalExpression w "1+1" = Returned (EvalOk (JNum 2)) ->
  eval_output w eval_one_plus_one = Some [CallEval "1+1"; ConsoleLog [JNum 2]]
  /\ run w eval_one_plus_one
     = ([CallEval "1+1"; ConsoleLog [JNum 2]; HelpText], Exit 0).
Proof.
  intros H. unfold eval_output, run; simpl. rewrite H. split; reflexivity.
Qed.

Lemma eval_ok_then_exit_0_witness :
  run sample_world eval_one_plus_one
  = ([CallEval "1+1"; ConsoleLog [JNum 2]; HelpText], Exit 0).
Proof.
  apply (proj2 (eval_ok_then_exit_0 sample_world eq_refl)).
Defined.

(** C10: when [eval] is the empty string (help and version unset) the
    evaluator is not called; the run is the run of the same command line
    without [eval], the argument parser's requirement on [config] is the
    same too, and when the validation guards are false the compiler is
    called. *)
Theorem empty_eval_is_absent_eval (w : World) (cli : Cli) :
  help (flags cli) = false ->
  version (flags cli) = false ->
  eval (flags cli) = Some EmptyString ->
  calls_evaluator (run w cli) = false
  /\ run w cli = run w {| flags := set_eval None (flags cli); input := input cli |}
  /\ config_isRequired (flags cli) = config_isRequired (set_eval None (flags cli))
  /\ (validation_passed cli = true -> calls_backend (run w cli) = true).
Proof.
  unfold validation_passed, config_isRequired. open_cli cli. intros -> -> ->.
  repeat split.
  - unfold calls_evaluator, run, request, resolved_mode; simpl.
    destruct cfg; list_cases inp; destruct ck, fn, wd, prj; simpl;
      try reflexivity;
      match goal with
      | |- context [main_run w ?r] => destruct (main_run w r) as [[[]]|]
      end; reflexivity.
  - intros Hvalid.
    unfold calls_backend, run, request, resolved_mode; simpl.
    destruct cfg; list_cases inp; destruct ck, fn, wd; simpl in Hvalid;
      try discriminate; destruct prj; simpl in Hvalid; try discriminate;
      simpl;
      match goal with
      | |- context [main_run w ?r] => destruct (main_run w r) as [[[]]|]
      end; reflexivity.
Qed.

Lemma empty_eval_is_absent_eval_witness :
  calls_evaluator (run crashing_world empty_eval_one_file) = false
  /\ run crashing_world empty_eval_one_file = run crashing_world one_file.
Proof.
  pose proof (empty_eval_is_absent_eval crashing_world empty_eval_one_file
                eq_refl eq_refl eq_refl) as [Hcalls [Hrun _]].
  split; [exact Hcalls | exact Hrun].
Defined.



(** ** The shape of every run *)

Lemma eval_output_inv (w : World) (cli : Cli) (pre : list event) :
  eval_output w cli = Some pre ->
  (pre = [] /\ truthy (eval (flags cli)) = false)
  \/ (exists source value,
        pre = [CallEval source; ConsoleLog [value]]
        /\ eval (flags cli) = Some source
        /\ truthy (Some source) = true
        /\ parseAndEvalExpression w source = Returned (EvalOk value)).
Proof.
  destruct cli as [[cfg prj q wd fn ck ev ver hlp] inp].
  unfold eval_output; simpl.
  destruct ev as [[|c s]|]; simpl.
  - intros H; inversion H; left; split; reflexivity.
  - destruct (parseAndEvalExpression w (String c s)) as [[v|m]|e] eqn:E;
      intros H; inversion H; subst.
    right. exists (String c s), v. repeat split; assumption.
  - intros H; inversion H; left; split; reflexivity.
Qed.

(** On a build invocation the run is the eval output, the call of
    [main.run] and what its answer leads to. *)
Lemma backend_cases (w : World) (cli : Cli) (pre : list event) :
  help (flags cli) = false ->
  version (flags cli) = false ->
  eval_output w cli = Some pre ->
  validation_passed cli = true ->
  (exists response,
     main_run w (request cli) = Returned response
     /\ run w cli = ((pre ++ [CallRun (request cli)])%list,
                     Exit (if ok response then 0 else 30)))
  \/ (exists e,
        main_run w (request cli) = Thrown e
        /\ run w cli = ((pre ++ [CallRun (request cli);
                                 ConsoleError [JStr "Execution error:"; e]])%list,
                        Exit 1)).
Proof.
  unfold validation_passed. open_cli cli. intros -> -> Hev Hvalid.
  unfold request, resolved_mode; simpl.
  destruct cfg; list_cases inp; destruct ck, fn, wd; simpl in Hvalid;
    try discriminate; destruct prj; simpl in Hvalid; try discriminate;
    match goal with
    | |- context [main_run w ?r] =>
        destruct (main_run w r) as [[b]|e] eqn:R;
          [left; exists {| ok := b |} | right; exists e]
    end;
    (split; [reflexivity|]);
    eval_cases Hev; unfold run, request, resolved_mode; simpl;
    try match goal with
    | E : parseAndEvalExpression _ _ = _ |- _ => rewrite E
    end;
    simpl; rewrite R; reflexivity.
Qed.

(** Every run takes one of the ways of [path]. *)
Lemma run_path (w : World) (cli : Cli) : path w cli (run w cli).
Proof.
  destruct cli as [[cfg prj q wd fn ck ev ver hlp] inp].
  destruct hlp; [apply path_help; reflexivity|].
  destruct ver.
  { destruct (git_rev_parse w) as [out|e] eqn:G.
    - replace (run w _) with
        ([ConsoleLog [JStr (pkg_version w)]; ExecGit;
          ConsoleLog [JStr ("git commit: " ++ trim out)]], @Exit unit 0)
        by (unfold run; simpl; rewrite G; reflexivity).
      apply path_version_found; solve [reflexivity | assumption].
    - replace (run w _) with
        ([ConsoleLog [JStr (pkg_version w)]; ExecGit], @Exit unit 0)
        by (unfold run; simpl; rewrite G; reflexivity).
      eapply path_version_unknown; solve [reflexivity | eassumption]. }
  destruct (eval_output w {| flags := {| config := cfg; projects := prj; quiet := q;
                                         withDecompilation := wd; func := fn;
                                         check := ck; eval := ev; version := false;
                                         help := false |};
                             input := inp |}) as [pre|] eqn:Hout.
  - set (cli := {| flags := _; input := inp |}) in *.
    destruct (both_given cli) eqn:G1.
    { replace (run w cli) with
        ((pre ++ [usage_error both_message; HelpText])%list, @Exit unit 2).
      - apply path_both; solve [reflexivity | assumption].
      - subst cli. unfold_guards.
        destruct cfg; list_cases inp; run_after_eval Hout. }
    destruct (1 <? numOfCompilationModeFlagsSet cli)%nat eqn:G2.
    { replace (run w cli) with
        ((pre ++ [usage_error exclusive_message; HelpText])%list, @Exit unit 2).
      - apply path_exclusive; solve [reflexivity | assumption].
      - subst cli. unfold_guards.
        destruct cfg; list_cases inp; destruct ck, fn, wd; simpl in G2;
          try discriminate; run_after_eval Hout. }
    destruct (isEmptyConfigAndInput cli
              && (0 <? numOfCompilationModeFlagsSet cli)%nat) eqn:G3.
    { replace (run w cli) with
        ((pre ++ [usage_error either_message; HelpText])%list, @Exit unit 2).
      - apply path_either; solve [reflexivity | assumption].
      - subst cli. unfold_guards.
        destruct cfg; list_cases inp; destruct ck, fn, wd; simpl in G2, G3;
          try discriminate; run_after_eval Hout. }
    destruct (1 <? length (input cli))%nat eqn:G4.
    { replace (run w cli) with
        ((pre ++ [usage_error one_file_message; HelpText])%list, @Exit unit 2).
      - apply path_one_file; solve [reflexivity | assumption].
      - subst cli. unfold_guards.
        destruct cfg; list_cases inp; destruct ck, fn, wd; simpl in G2, G3;
          try discriminate; run_after_eval Hout. }
    destruct (bare cli) eqn:G5.
    { replace (run w cli) with ((pre ++ [HelpText])%list, @Exit unit 0).
      - apply path_bare; solve [reflexivity | assumption].
      - subst cli. unfold_guards.
        destruct cfg; list_cases inp; destruct ck, fn, wd; simpl in G2, G3, G5;
          try discriminate; destruct prj; simpl in G5; try discriminate;
          run_after_eval Hout. }
    assert (Hvalid : validation_passed cli = true).
    { unfold validation_passed. fold (bare cli).
      rewrite G1, G2, G3, G4, G5. reflexivity. }
    destruct (backend_cases w cli pre eq_refl eq_refl Hout Hvalid)
      as [(response & R & ->) | (e & R & ->)].
    + eapply path_run_returned; solve [reflexivity | eassumption].
    + eapply path_run_thrown; solve [reflexivity | eassumption].
  - unfold eval_output in Hout; simpl in Hout.
    destruct ev as [[|c s]|]; simpl in Hout; try discriminate.
    destruct (parseAndEvalExpression w (String c s)) as [[v|m]|e] eqn:E;
      try discriminate.
    + replace (run w _) with
        ([CallEval (String c s); ConsoleError [JStr m]], @Exit unit 30)
        by (unfold run; simpl; rewrite E; reflexivity).
      eapply path_eval_failed; solve [reflexivity | eassumption].
    + replace (run w _) with
        ([CallEval (String c s); ConsoleError [JStr "Evaluation error:"; e]],
         @Exit unit 1)
        by (unfold run; simpl; rewrite E; reflexivity).
      eapply path_eval_thrown; solve [reflexivity | eassumption].
Qed.

(** ** What a run does and does not do *)

(** X1: a bare invocation (no config, no file, no mode flag, no project
    name; help and version unset, the eval branch passed) renders the help
    and ends with code 0: nothing is written to the error stream and the
    compiler is not called. *)
Theorem bare_invocation_shows_help (w : World) (cli : Cli) (pre : list event) :
  help (flags cli) = false ->
  version (flags cli) = false ->
  eval_output w cli = Some pre ->
  config (flags cli) = None ->
  input cli = [] ->
  numOfCompilationModeFlagsSet cli = 0%nat ->
  projects (flags cli) = [] ->
  run w cli = ((pre ++ [HelpText])%list, Exit 0)
  /\ stderr_lines (run w cli) = []
  /\ requests (run w cli) = [].
Proof.
  open_cli cli. intros -> -> Hev -> -> Hnum ->.
  match goal with
  | |- ?r = ?v /\ _ => assert (Hrun : r = v)
  end.
  { destruct ck, fn, wd; simpl in Hnum; try discriminate; run_after_eval Hev. }
  rewrite Hrun. split; [reflexivity|].
  eval_cases Hev; split; reflexivity.
Qed.

Lemma bare_invocation_shows_help_witness :
  run crashing_world no_arguments = ([HelpText], Exit 0).
Proof.
  apply (bare_invocation_shows_help crashing_world no_arguments []);
    reflexivity.
Defined.


(** A request that reaches the compiler is the one built from the command
    line, and the command line passed every check. *)
Lemma request_sent_inv (w : World) (cli : Cli) (req : ExecutionRequest) :
  In req (requests (run w cli)) ->
  req = request cli
  /\ help (flags cli) = false
  /\ version (flags cli) = false
  /\ validation_passed cli = true.
Proof.
  destruct (run_path w cli)
    as [H | out H V G | e H V G | s m H V Ev T A | s e H V Ev T A
        | pre H V Out G1 | pre H V Out G1 G2 | pre H V Out G1 G2 G3
        | pre H V Out G1 G2 G3 G4 | pre H V Out G1 G2 G3 G4 G5
        | pre r H V Out Valid R | pre e H V Out Valid R];
    try (simpl; tauto);
    destruct (eval_output_inv _ _ _ Out) as [[-> _] | (s & v & -> & _)];
    simpl; intros Hin; try tauto;
    destruct Hin as [<- | []]; repeat split; assumption.
Qed.

(** X4: whenever the compiler is called, the mode in the request tells the
    three mode flags apart: each mode stands for its own flag set and the
    other two unset, and no mode stands for no flag set. The order of the
    conditional chain ([check], then [func], then [withDecompilation])
    never decides, since two flags set end the run before. *)
Theorem mode_names_the_only_flag_set
  (w : World) (cli : Cli) (req : ExecutionRequest) :
  In req (requests (run w cli)) ->
  (check (flags cli), func (flags cli), withDecompilation (flags cli))
  = match mode req with
    | Some checkOnly => (true, false, false)
    | Some funcOnly => (false, true, false)
    | Some fullWithDecompilation => (false, false, true)
    | None => (false, false, false)
    end.
Proof.
  intros Hin. destruct (request_sent_inv w cli req Hin) as (-> & _ & _ & Hvalid).
  clear Hin. revert Hvalid. unfold validation_passed, request, resolved_mode.
  open_cli cli.
  destruct ck, fn, wd; simpl; rewrite ?andb_false_r; simpl;
    solve [reflexivity | discriminate].
Qed.

Lemma mode_names_the_only_flag_set_witness :
  (false, true, false)
  = match mode (request func_one_file) with
    | Some checkOnly => (true, false, false)
    | Some funcOnly => (false, true, false)
    | Some fullWithDecompilation => (false, false, true)
    | None => (false, false, false)
    end.
Proof.
  apply (mode_names_the_only_flag_set sample_world func_one_file
           (request func_one_file)).
  simpl. left. reflexivity.
Defined.

(** X5: whenever the compiler is called, the request never carries both a
    file name and a config path; the file name is the only positional
    argument, or absent when there is none; and a request with neither a
    file nor a config carries project names and no mode. *)
Theorem request_names_at_most_one_source
  (w : World) (cli : Cli) (req : ExecutionRequest) :
  In req (requests (run w cli)) ->
  (fileName req = None \/ configPath req = None)
  /\ input cli = match fileName req with Some file => [file] | None => [] end
  /\ (fileName req = None -> configPath req = None ->
      projectNames req <> [] /\ mode req = None).
Proof.
  intros Hin. destruct (request_sent_inv w cli req Hin) as (-> & _ & _ & Hvalid).
  clear Hin. revert Hvalid. unfold validation_passed, request, resolved_mode.
  open_cli cli.
  destruct cfg; list_cases inp; destruct ck, fn, wd; simpl;
    try discriminate; destruct prj; simpl; try discriminate;
    intros _; repeat split; auto; try discriminate; congruence.
Qed.

Lemma request_names_at_most_one_source_witness :
  input func_one_file
  = match fileName (request func_one_file) with
    | Some file => [file]
    | None => []
    end.
Proof.
  apply (request_names_at_most_one_source sample_world func_one_file
           (request func_one_file)).
  simpl. left. reflexivity.
Defined.

(** X6: on a command line the argument parser accepts (the [isRequired]
    callback of [config]) and without an expression to evaluate, a request
    that reaches the compiler names exactly one source, a file or a config,
    and project names only come with a config. *)
Theorem accepted_build_has_one_source
  (w : World) (cli : Cli) (req : ExecutionRequest) :
  parser_accepts cli = true ->
  truthy (eval (flags cli)) = false ->
  In req (requests (run w cli)) ->
  defined (fileName req) = negb (defined (configPath req))
  /\ (projectNames req <> [] -> fileName req = None /\ configPath req <> None).
Proof.
  intros Hacc Hev Hin.
  destruct (request_sent_inv w cli req Hin) as (-> & Hh & Hv & Hvalid).
  clear Hin. revert Hacc Hev Hh Hv Hvalid.
  unfold parser_accepts, config_isRequired, validation_passed, request,
    resolved_mode.
  open_cli cli. intros Hacc Hev Hh Hv. subst hlp ver.
  rewrite Hev in Hacc. revert Hacc.
  destruct cfg; list_cases inp; destruct ck, fn, wd; simpl;
    try discriminate; destruct prj; simpl; try discriminate;
    intros _ _; repeat split; auto; try discriminate; congruence.
Qed.

Lemma accepted_build_has_one_source_witness :
  defined (fileName (request func_one_file))
  = negb (defined (configPath (request func_one_file))).
Proof.
  apply (accepted_build_has_one_source sample_world func_one_file
           (request func_one_file) eq_refl eq_refl).
  simpl. left. reflexivity.
Defined.

(** Without the condition on [eval] X6 fails: [tact -e 1+1 -p core] passes
    the argument parser, prints [2] and calls the compiler with project
    names and no source. *)
Example eval_and_project_builds_without_source :
  parser_accepts eval_and_project = true
  /\ run sample_world eval_and_project
     = ([CallEval "1+1"; ConsoleLog [JNum 2];
         CallRun {| fileName := None; configPath := None;
                    projectNames := ["core"]; mode := None;
                    suppressLog := false |}], Exit 0).
Proof. split; reflexivity. Qed.





(** X9: the evaluator is called exactly when help and version are unset and
    [eval] is a non-empty string; it is then called once, with that string
    unchanged. *)
Theorem evaluator_called_iff (w : World) (cli : Cli) :
  evaluated (run w cli)
  = match eval (flags cli) with
    | Some source =>
        if negb (help (flags cli)) && negb (version (flags cli))
           && truthy (Some source)
        then [source] else []
    | None => []
    end.
Proof.
  destruct (run_path w cli)
    as [H | out H V G | e H V G | s m H V Ev T A | s e H V Ev T A
        | pre H V Out G1 | pre H V Out G1 G2 | pre H V Out G1 G2 G3
        | pre H V Out G1 G2 G3 G4 | pre H V Out G1 G2 G3 G4 G5
        | pre r H V Out Valid R | pre e H V Out Valid R];
    rewrite ?H, ?V;
    try (destruct (eval (flags cli)); reflexivity);
    try (rewrite Ev, T; reflexivity);
    (destruct (eval_output_inv _ _ _ Out)
      as [[-> Hf] | (s' & v' & -> & Ev' & T' & _)];
     [ destruct (eval (flags cli)); [rewrite Hf|]; reflexivity
     | rewrite Ev', T'; reflexivity ]).
Qed.

(** X10: [git] is run exactly when the version flag is set and the help
    flag is not, and then once. *)
Theorem git_lookup_iff_version (w : World) (cli : Cli) :
  git_lookups (run w cli)
  = if negb (help (flags cli)) && version (flags cli) then 1%nat else 0%nat.
Proof.
  destruct (run_path w cli)
    as [H | out H V G | e H V G | s m H V Ev T A | s e H V Ev T A
        | pre H V Out G1 | pre H V Out G1 G2 | pre H V Out G1 G2 G3
        | pre H V Out G1 G2 G3 G4 | pre H V Out G1 G2 G3 G4 G5
        | pre r H V Out Valid R | pre e H V Out Valid R];
    rewrite ?H, ?V; simpl; try reflexivity;
    destruct (eval_output_inv _ _ _ Out) as [[-> _] | (s' & v' & -> & _)];
    reflexivity.
Qed.



(** X12: a run that ends with code 30 reports a failure of a collaborator:
    either the evaluator answered with a message, which is the one line on
    the error stream, or the compiler was called and answered
    [{ok: false}], and the script itself wrote nothing to the error
    stream. *)
Theorem exit_30_means_reported_failure (w : World) (cli : Cli) :
  exit_code (run w cli) = Some 30 ->
  (exists source message,
     eval (flags cli) = Some source
     /\ parseAndEvalExpression w source = Returned (EvalFailed message)
     /\ stderr_lines (run w cli) = [ConsoleError [JStr message]]
     /\ requests (run w cli) = [])
  \/ (main_run w (request cli) = Returned {| ok := false |}
      /\ stderr_lines (run w cli) = []
      /\ requests (run w cli) = [request cli]).
Proof.
  destruct (run_path w cli)
    as [H | out H V G | e H V G | s m H V Ev T A | s e H V Ev T A
        | pre H V Out G1 | pre H V Out G1 G2 | pre H V Out G1 G2 G3
        | pre H V Out G1 G2 G3 G4 | pre H V Out G1 G2 G3 G4 G5
        | pre r H V Out Valid R | pre e H V Out Valid R];
    unfold exit_code; simpl; try discriminate.
  - intros _. left. exists s, m. repeat split; assumption.
  - destruct r as [[|]]; simpl; [discriminate|].
    intros _. right. split; [assumption|].
    destruct (eval_output_inv _ _ _ Out) as [[-> _] | (s' & v' & -> & _)];
      split; reflexivity.
Qed.

Lemma exit_30_means_reported_failure_witness :
  (exists source message,
     eval (flags eval_division_by_zero) = Some source
     /\ parseAndEvalExpression sample_world source = Returned (EvalFailed message)
     /\ stderr_lines (run sample_world eval_division_by_zero)
        = [ConsoleError [JStr message]]
     /\ requests (run sample_world eval_division_by_zero) = [])
  \/ (main_run sample_world (request eval_division_by_zero)
      = Returned {| ok := false |}
      /\ stderr_lines (run sample_world eval_division_by_zero) = []
      /\ requests (run sample_world eval_division_by_zero)
         = [request eval_division_by_zero]).
Proof.
  apply (exit_30_means_reported_failure sample_world eval_division_by_zero).
  reflexivity.
Defined.

(** X13: a run that ends with code 0 wrote nothing to the error stream, and
    it ended at the help flag, on the version path, at the bare-invocation
    check, or after the compiler answered [{ok: true}]. *)
Theorem exit_0_means_success (w : World) (cli : Cli) :
  exit_code (run w cli) = Some 0 ->
  stderr_lines (run w cli) = []
  /\ (help (flags cli) = true
      \/ version (flags cli) = true
      \/ bare cli = true
      \/ (requests (run w cli) = [request cli]
          /\ main_run w (request cli) = Returned {| ok := true |})).
Proof.
  destruct (run_path w cli)
    as [H | out H V G | e H V G | s m H V Ev T A | s e H V Ev T A
        | pre H V Out G1 | pre H V Out G1 G2 | pre H V Out G1 G2 G3
        | pre H V Out G1 G2 G3 G4 | pre H V Out G1 G2 G3 G4 G5
        | pre r H V Out Valid R | pre e H V Out Valid R];
    unfold exit_code; simpl; try discriminate;
    try (intros _; split; [reflexivity | tauto]).
  - intros _.
    destruct (eval_output_inv _ _ _ Out) as [[-> _] | (s' & v' & -> & _)];
      (split; [reflexivity | tauto]).
  - destruct r as [[|]]; simpl; [|discriminate].
    intros _.
    destruct (eval_output_inv _ _ _ Out) as [[-> _] | (s' & v' & -> & _)];
      (split; [reflexivity | right; right; right; split; [reflexivity | assumption]]).
Qed.

Lemma exit_0_means_success_witness :
  stderr_lines (run sample_world one_file) = []
  /\ (help (flags one_file) = true
      \/ version (flags one_file) = true
      \/ bare one_file = true
      \/ (requests (run sample_world one_file) = [request one_file]
          /\ main_run sample_world (request one_file) = Returned {| ok := true |})).
Proof.
  apply (exit_0_means_success sample_world one_file). reflexivity.
Defined.

(** X14: the script writes at most one line to the error stream in a
    run. *)
Theorem at_most_one_stderr_line (w : World) (cli : Cli) :
  (length (stderr_lines (run w cli)) <= 1)%nat.
Proof.
  destruct (run_path w cli)
    as [H | out H V G | e H V G | s m H V Ev T A | s e H V Ev T A
        | pre H V Out G1 | pre H V Out G1 G2 | pre H V Out G1 G2 G3
        | pre H V Out G1 G2 G3 G4 | pre H V Out G1 G2 G3 G4 G5
        | pre r H V Out Valid R | pre e H V Out Valid R];
    simpl; try lia;
    destruct (eval_output_inv _ _ _ Out) as [[-> _] | (s' & v' & -> & _)];
    simpl; lia.
Qed.

(** X15: a config and no positional argument, with at most one mode flag
    (help and version unset, the eval branch passed), always reaches the
    compiler, once, whatever the project names and the quiet flag are. The
    config is tested against [undefined], not for truthiness, so this holds
    for the empty path too. *)
Theorem config_alone_builds (w : World) (cli : Cli) (pre : list event) (configFile : string) :
  help (flags cli) = false ->
  version (flags cli) = false ->
  eval_output w cli = Some pre ->
  config (flags cli) = Some configFile ->
  input cli = [] ->
  (numOfCompilationModeFlagsSet cli <= 1)%nat ->
  requests (run w cli)
  = [ {| fileName := None; configPath := Some configFile;
         projectNames := projects (flags cli); mode := resolved_mode cli;
         suppressLog := quiet (flags cli) |} ]
  /\ forall message, reports message (run w cli) = false.
Proof.
  intros H V Out C I N.
  assert (Hvalid : validation_passed cli = true).
  { revert C I N. unfold validation_passed. open_cli cli. intros -> -> N.
    destruct ck, fn, wd; simpl in *; solve [reflexivity | lia]. }
  destruct (backend_cases w cli pre H V Out Hvalid)
    as [(r & _ & ->) | (e & _ & ->)];
    unfold request; rewrite C, I;
    destruct (eval_output_inv _ _ _ Out) as [[-> _] | (s & v & -> & _)];
    split; reflexivity.
Qed.

Lemma config_alone_builds_witness :
  requests (run failing_world empty_config_check)
  = [ {| fileName := None; configPath := Some EmptyString;
         projectNames := ["core"]; mode := Some checkOnly;
         suppressLog := true |} ].
Proof.
  apply (config_alone_builds failing_world empty_config_check [] EmptyString);
    solve [reflexivity | cbv; lia].
Defined.



(** X17: the help text is rendered at most once and is the last thing a run
    does: a run that renders it ends there, with code 0 or 2, and has not
    called the compiler. *)
Theorem help_text_ends_the_run (w : World) (cli : Cli) :
  In HelpText (trace (run w cli)) ->
  (exists pre, trace (run w cli) = (pre ++ [HelpText])%list
               /\ ~ In HelpText pre)
  /\ (exit_code (run w cli) = Some 0 \/ exit_code (run w cli) = Some 2)
  /\ requests (run w cli) = [].
Proof.
  assert (Hne : forall m, usage_error m <> HelpText) by discriminate.
  destruct (run_path w cli)
    as [H | out H V G | e H V G | s m H V Ev T A | s e H V Ev T A
        | pre H V Out G1 | pre H V Out G1 G2 | pre H V Out G1 G2 G3
        | pre H V Out G1 G2 G3 G4 | pre H V Out G1 G2 G3 G4 G5
        | pre r H V Out Valid R | pre e H V Out Valid R];
    unfold exit_code; simpl;
    try (destruct (eval_output_inv _ _ _ Out) as [[-> _] | (s' & v' & -> & _)]);
    simpl; intros Hin;
    try (exfalso; intuition discriminate);
    (split; [|split; [auto | reflexivity]]).
  - exists []; split; [reflexivity | simpl; tauto].
  - eexists [_]; split; [reflexivity | simpl; intuition discriminate].
  - eexists [_; _; _]; split; [reflexivity | simpl; intuition discriminate].
  - eexists [_]; split; [reflexivity | simpl; intuition discriminate].
  - eexists [_; _; _]; split; [reflexivity | simpl; intuition discriminate].
  - eexists [_]; split; [reflexivity | simpl; intuition discriminate].
  - eexists [_; _; _]; split; [reflexivity | simpl; intuition discriminate].
  - eexists [_]; split; [reflexivity | simpl; intuition discriminate].
  - eexists [_; _; _]; split; [reflexivity | simpl; intuition discriminate].
  - exists []; split; [reflexivity | simpl; tauto].
  - eexists [_; _]; split; [reflexivity | simpl; intuition discriminate].
Qed.

Lemma help_text_ends_the_run_witness :
  exit_code (run sample_world check_alone) = Some 0
  \/ exit_code (run sample_world check_alone) = Some 2.
Proof.
  apply (help_text_ends_the_run sample_world check_alone).
  simpl. right. left. reflexivity.
Defined.
